(** * gif.py: frame capture and animated-image encoding

    A shallow embedding of [src/gif.py].  The module is a thin wrapper over
    three foreign libraries (matplotlib's pyplot, altair_saver and Pillow), so
    the embedding has three layers:

    - [Py]: the fragment of the Python runtime the source relies on
      (exceptions, [str.__contains__], list indexing and slicing, the
      keyword-merging rule of a call expression, [io.BytesIO]);
    - the foreign libraries, taken as an arbitrary [Library] record of
      state-passing, fallible operations;
    - the source itself: module initialisation, [frame] / [wrapper1] /
      [wrapper2] and [save], written in a state-and-exception monad whose
      state also records every foreign call made. *)

From Stdlib Require Import ZArith String Ascii List Lia.
From stdpp Require Import base option list gmap strings.

Set Warnings "-register-all".

Local Open Scope string_scope.
Local Open Scope Z_scope.

(** ** The Python runtime fragment *)

Module Py.

(** Exceptions: the class defined by gif.py, the built-in classes the
    interpreter itself raises in this module, and any other class, given by
    its qualified name. *)
Inductive Exn : Type :=
| MissingExtension (msg : string)
| TypeError (msg : string)
| IndexError (msg : string)
| NameError (msg : string)
| ModuleNotFoundError (msg : string)
| OtherError (cls msg : string).

Inductive Result (A : Type) : Type :=
| Ok (a : A)
| Raise (e : Exn).
Arguments Ok {A} a.
Arguments Raise {A} e.

Definition is_ok {A} (r : Result A) : bool :=
  match r with Ok _ => true | Raise _ => false end.

(** [s.startswith(p)] *)
Fixpoint startswith (p s : string) : bool :=
  match p, s with
  | EmptyString, _ => true
  | String _ _, EmptyString => false
  | String a p', String b s' => if Ascii.eqb a b then startswith p' s' else false
  end.

(** [needle in hay] for two [str] operands. *)
Fixpoint str_contains (needle hay : string) : bool :=
  startswith needle hay ||
  match hay with
  | EmptyString => false
  | String _ hay' => str_contains needle hay'
  end.

(** [l[0]] on a list. *)
Definition getitem0 {A} (l : list A) : Result A :=
  match l with
  | [] => Raise (IndexError "list index out of range")
  | x :: _ => Ok x
  end.

(** [l[1:]] on a list: slicing never raises. *)
Definition slice_from1 {A} (l : list A) : list A := drop 1 l.

(** [io.BytesIO]: the bytes written so far and the stream position. *)
Record BytesIO : Type := mkBytesIO { getvalue : list Byte.byte; tell : nat }.

Definition BytesIO_new : BytesIO := mkBytesIO [] 0.

(** [buffer.seek(n)] *)
Definition seek (b : BytesIO) (n : nat) : BytesIO := mkBytesIO (getvalue b) n.

(** The message of the TypeError a call expression raises when a keyword is
    given both explicitly and through a double-star mapping. *)
Definition multiple_values (fname key : string) : Exn :=
  TypeError (fname ++ "() got multiple values for keyword argument '" ++ key ++ "'").

Section Keywords.
Context {V : Type}.

(** The keyword dictionary of [f(..., k1=v1, ..., **dstar)]: the explicit
    keywords first, then the mapping merged in; a key of the mapping already
    present raises TypeError before [f] is entered. *)
Definition call_keywords (fname : string) (explicit : list (string * V))
    (dstar : gmap string V) : Result (gmap string V) :=
  match List.find (fun kv => bool_decide (is_Some (dstar !! kv.1))) explicit with
  | Some kv => Raise (multiple_values fname kv.1)
  | None => Ok (list_to_map explicit ∪ dstar)
  end.

End Keywords.

End Py.
Import Py.

(** ** Values, foreign libraries and the world *)

Section Gif.

(** Decoded Pillow images, pyplot's global figure state and the file system
    are owned by the foreign libraries; the wrapper never looks inside. *)
Context {Image Plt Files : Type}.

(** Python values that cross the wrapper's boundary.  [VObj cls id] is an
    instance of an arbitrary class, [cls] being what [str(type(_))] prints
    between the quotes (an Altair chart is
    [VObj "altair.vegalite.v4.api.Chart" _]). *)
Inductive PyVal : Type :=
| VNone
| VBool (b : bool)
| VInt (z : Z)
| VStr (s : string)
| VList (l : list PyVal)
| VImage (i : Image)
| VObj (cls : string) (id : nat).

(** [str(type(v))] *)
Definition type_str (v : PyVal) : string :=
  let cls :=
    match v with
    | VNone => "NoneType"
    | VBool _ => "bool"
    | VInt _ => "int"
    | VStr _ => "str"
    | VList _ => "list"
    | VImage _ => "PIL.PngImagePlugin.PngImageFile"
    | VObj cls _ => cls
    end in
  "<class '" ++ cls ++ "'>".

(** Positional arguments and keyword dictionaries. *)
Local Abbreviation PosArgs := (list PyVal).
Local Abbreviation Kwargs := (gmap string PyVal).

(** The foreign operations the module calls.  Each one may raise, and each
    one acts only on the state its library owns.  A call that writes into the
    [io.BytesIO] passed to it returns the buffer as written. *)
Record Library : Type := {
  (** [matplotlib.pyplot.savefig(fname, *args, **kwargs)] *)
  plt_savefig : BytesIO -> PosArgs -> Kwargs -> Plt -> Result BytesIO * Plt;
  (** [matplotlib.pyplot.close()] *)
  plt_close : Plt -> Result unit * Plt;
  (** [PIL.Image.open(fp)] *)
  Image_open : BytesIO -> Result Image;
  (** [PIL.Image.Image.save(self, fp, **params)] *)
  Image_save : Image -> PosArgs -> Kwargs -> Files -> Result unit * Files
}.

(** [altair_saver.save(chart, fp, *args, **kwargs)] *)
Definition SaveAlt : Type := PyVal -> BytesIO -> PosArgs -> Kwargs -> Result BytesIO.

(** A user plotting function: it may draw on pyplot's global state, touch
    files, return any value, or raise. *)
Definition PlotFunc : Type :=
  PosArgs -> Kwargs -> Plt -> Files -> Result PyVal * Plt * Files.

(** Foreign calls, as recorded in the world. *)
Inductive Call : Type :=
| Call_func (args : PosArgs) (kwargs : Kwargs)
| Call_save_alt (chart : PyVal) (fp : BytesIO) (args : PosArgs) (kwargs : Kwargs)
| Call_savefig (fname : BytesIO) (args : PosArgs) (kwargs : Kwargs)
| Call_close
| Call_Image_open (fp : BytesIO)
| Call_Image_save (self : Image) (args : PosArgs) (kwargs : Kwargs).

(** Calls that render a plot or decode a rendering. *)
Definition is_render_call (c : Call) : bool :=
  match c with
  | Call_save_alt _ _ _ _ | Call_savefig _ _ _ | Call_Image_open _ => true
  | _ => false
  end.

(** Calls into pyplot (the imperative path). *)
Definition is_pyplot_call (c : Call) : bool :=
  match c with
  | Call_savefig _ _ _ | Call_close => true
  | _ => false
  end.

Definition is_save_alt_call (c : Call) : bool :=
  match c with
  | Call_save_alt _ _ _ _ => true
  | _ => false
  end.

Definition is_close_call (c : Call) : bool :=
  match c with
  | Call_close => true
  | _ => false
  end.

Record World : Type := mkWorld {
  plt_state : Plt;
  file_system : Files;
  call_log : list Call
}.

Definition log_call (c : Call) (w : World) : World :=
  mkWorld (plt_state w) (file_system w) (call_log w ++ [c]).

(** *** The monad: state passing with exceptions; the state reached when an
    exception is raised is kept, as in Python. *)
Definition M (A : Type) : Type := World -> Result A * World.

Definition ret {A} (a : A) : M A := fun w => (Ok a, w).
Definition raise {A} (e : Exn) : M A := fun w => (Raise e, w).
Definition bind {A B} (m : M A) (k : A -> M B) : M B :=
  fun w =>
    match m w with
    | (Ok a, w') => k a w'
    | (Raise e, w') => (Raise e, w')
    end.
Definition lift {A} (r : Result A) : M A := fun w => (r, w).

Notation "'let*' x ':=' m 'in' k" := (bind m (fun x => k))
  (at level 10, x name, m at level 100, k at level 200).
Notation "m ';;;' k" := (bind m (fun _ => k))
  (at level 100, k at level 200, right associativity).

(** ** Module initialisation (lines 7-12) *)

(** What [from altair_saver import save as save_alt] can do. *)
Inductive ImportOutcome : Type :=
| Imported (f : SaveAlt)
| ImportRaises (e : Exn).

(** The module globals the functions read. [save_alt] is unbound when the
    import failed. *)
Record Globals : Type := {
  altair_saver_installed : bool;
  save_alt : option SaveAlt
}.

Definition is_ModuleNotFoundError (e : Exn) : bool :=
  match e with ModuleNotFoundError _ => true | _ => false end.

(** The try/except around the import: only ModuleNotFoundError is handled;
    any other exception aborts the import of gif itself. *)
Definition load_module (imp : ImportOutcome) : Result Globals :=
  match imp with
  | Imported f => Ok {| altair_saver_installed := true; save_alt := Some f |}
  | ImportRaises e =>
      if is_ModuleNotFoundError e
      then Ok {| altair_saver_installed := false; save_alt := None |}
      else Raise e
  end.

(** ** frame (lines 19-65) *)

Section Source.
Variable lib : Library.
Variable G : Globals.

(** [func( *args, **kwargs)] *)
Definition call_func (func : PlotFunc) (args : PosArgs) (kwargs : Kwargs) : M PyVal :=
  fun w =>
    let w := log_call (Call_func args kwargs) w in
    let '(r, p, f) := func args kwargs (plt_state w) (file_system w) in
    (r, mkWorld p f (call_log w)).

(** [save_alt(plot, buffer, fmt="png", *save_args, **save_kwargs)] *)
Definition call_save_alt (plot : PyVal) (buffer : BytesIO)
    (save_args : PosArgs) (save_kwargs : Kwargs) : M BytesIO :=
  match save_alt G with
  | None => raise (NameError "name 'save_alt' is not defined")
  | Some f =>
      let* kw := lift (call_keywords "save" [("fmt", VStr "png")] save_kwargs) in
      fun w =>
        (f plot buffer save_args kw,
         log_call (Call_save_alt plot buffer save_args kw) w)
  end.

(** [plt.savefig(buffer, format="png", *save_args, **save_kwargs)] *)
Definition call_savefig (buffer : BytesIO)
    (save_args : PosArgs) (save_kwargs : Kwargs) : M BytesIO :=
  let* kw := lift (call_keywords "savefig" [("format", VStr "png")] save_kwargs) in
  fun w =>
    let w := log_call (Call_savefig buffer save_args kw) w in
    let '(r, p) := plt_savefig lib buffer save_args kw (plt_state w) in
    (r, mkWorld p (file_system w) (call_log w)).

(** [plt.close()] *)
Definition call_close : M unit :=
  fun w =>
    let w := log_call Call_close w in
    let '(r, p) := plt_close lib (plt_state w) in
    (r, mkWorld p (file_system w) (call_log w)).

(** [Image.open(buffer)] *)
Definition call_Image_open (buffer : BytesIO) : M Image :=
  fun w => (Image_open lib buffer, log_call (Call_Image_open buffer) w).

(** The test of line 53: ["altair" in str(type(plot))]. *)
Definition is_altair (plot : PyVal) : bool :=
  str_contains "altair" (type_str plot).

(** The two arms of the conditional (lines 54-56 and 58-59); each hands back
    the buffer it rendered into. *)
Definition chart_mode (plot : PyVal) (buffer : BytesIO)
    (save_args : PosArgs) (save_kwargs : Kwargs) : M BytesIO :=
  if negb (altair_saver_installed G) then
    raise (MissingExtension "pip install gif[altair]")
  else
    call_save_alt plot buffer save_args save_kwargs.

Definition imperative_mode (buffer : BytesIO)
    (save_args : PosArgs) (save_kwargs : Kwargs) : M BytesIO :=
  let* buffer := call_savefig buffer save_args save_kwargs in
  call_close;;;
  ret buffer.

Definition wrapper2 (save_args : PosArgs) (save_kwargs : Kwargs) (func : PlotFunc)
    (args : PosArgs) (kwargs : Kwargs) : M Image :=
  let buffer := BytesIO_new in
  let* plot := call_func func args kwargs in
  let* buffer :=
    if is_altair plot then chart_mode plot buffer save_args save_kwargs
    else imperative_mode buffer save_args save_kwargs in
  let buffer := seek buffer 0 in
  let* image := call_Image_open buffer in
  ret image.

Definition wrapper1 (save_args : PosArgs) (save_kwargs : Kwargs) (func : PlotFunc)
    : PosArgs -> Kwargs -> M Image :=
  wrapper2 save_args save_kwargs func.

Definition frame (save_args : PosArgs) (save_kwargs : Kwargs)
    : PlotFunc -> PosArgs -> Kwargs -> M Image :=
  wrapper1 save_args save_kwargs.

(** The world in which [func] has just returned or raised. *)
Definition after_func (args : PosArgs) (kwargs : Kwargs) (p : Plt) (f : Files)
    (w : World) : World :=
  mkWorld p f (call_log w ++ [Call_func args kwargs]).



(** ** save (lines 68-91) *)

(** [frames[0].save(path, save_all=True, append_images=frames[1:],
    optimize=True, duration=duration, loop=0)] once [frames[0]] is known. *)
Definition call_Image_save (self : Image) (path : PyVal) (frames : list Image)
    (duration : Z) : M unit :=
  let* kw := lift (call_keywords "save"
                [("save_all", VBool true);
                 ("append_images", VList (VImage <$> slice_from1 frames));
                 ("optimize", VBool true);
                 ("duration", VInt duration);
                 ("loop", VInt 0)] ∅) in
  fun w =>
    let w := log_call (Call_Image_save self [path] kw) w in
    let '(r, f) := Image_save lib self [path] kw (file_system w) in
    (r, mkWorld (plt_state w) f (call_log w)).

(** [duration] is [None] when the caller leaves the parameter out. *)
Definition save (frames : list Image) (path : PyVal) (duration : option Z) : M PyVal :=
  let duration := default 100 duration in
  let* first := lift (getitem0 frames) in
  call_Image_save first path frames duration;;;
  ret VNone.

End Source.

(** ** The documented use (lines 76-82) *)

(** The loop of the example in the docstring of [save],
    [for i in range(10): frame = plot(i); frames.append(frame)], for any
    number of iterations, started at index [i] with the frames collected so
    far; the example itself is [range_loop plot 0 10 []]. *)
Fixpoint range_loop (plot : PosArgs -> Kwargs -> M Image) (i : Z) (count : nat)
    (frames : list Image) : M (list Image) :=
  match count with
  | O => ret frames
  | S count' =>
      let* frame := plot [VInt i] ∅ in
      range_loop plot (i + 1) count' (frames ++ [frame])
  end.

(** ** Reading the call log *)

(** The arguments of the calls of the plotting function, in order. *)
Definition func_calls (calls : list Call) : list (PosArgs * Kwargs) :=
  omap (fun c => match c with Call_func a k => Some (a, k) | _ => None end) calls.

(** The buffers handed to [Image.open], in order. *)
Definition opened_buffers (calls : list Call) : list BytesIO :=
  omap (fun c => match c with Call_Image_open fp => Some fp | _ => None end) calls.

(** The calls one capture can add to the log, given the decorator's options
    and the arguments of the call: the plotting function first; then, on the
    chart path, [save_alt] and [Image.open]; on the imperative path,
    [plt.savefig], [plt.close] and [Image.open].  Every prefix that starts
    with the plotting function is possible (a call may raise), nothing else
    is.  The renderer gets the fresh buffer and the PNG keyword; the decoder
    gets a buffer rewound to position 0. *)
Inductive capture_calls (save_args : PosArgs) (save_kwargs : Kwargs)
    (args : PosArgs) (kwargs : Kwargs) : list Call -> Prop :=
| calls_func :
    capture_calls save_args save_kwargs args kwargs
      [Call_func args kwargs]
| calls_save_alt plot :
    capture_calls save_args save_kwargs args kwargs
      [Call_func args kwargs;
       Call_save_alt plot BytesIO_new save_args (<["fmt" := VStr "png"]> save_kwargs)]
| calls_save_alt_open plot fp :
    tell fp = 0%nat ->
    capture_calls save_args save_kwargs args kwargs
      [Call_func args kwargs;
       Call_save_alt plot BytesIO_new save_args (<["fmt" := VStr "png"]> save_kwargs);
       Call_Image_open fp]
| calls_savefig :
    capture_calls save_args save_kwargs args kwargs
      [Call_func args kwargs;
       Call_savefig BytesIO_new save_args (<["format" := VStr "png"]> save_kwargs)]
| calls_savefig_close :
    capture_calls save_args save_kwargs args kwargs
      [Call_func args kwargs;
       Call_savefig BytesIO_new save_args (<["format" := VStr "png"]> save_kwargs);
       Call_close]
| calls_savefig_close_open fp :
    tell fp = 0%nat ->
    capture_calls save_args save_kwargs args kwargs
      [Call_func args kwargs;
       Call_savefig BytesIO_new save_args (<["format" := VStr "png"]> save_kwargs);
       Call_close;
       Call_Image_open fp].

End Gif.

(** ** A small concrete library, to run the module on *)

Module Demo.

(** A decoded image is the bytes it was decoded from; pyplot's state is the
    list of artists drawn on the current figure; the file system maps a path
    to the frames of the animation written there. *)
Definition Image : Type := list Byte.byte.
Definition Plt : Type := list string.
Definition Files : Type := gmap string (list Image).

(** One byte per artist, after a one-byte signature. *)
Definition render (p : Plt) : list Byte.byte :=
  Byte.x89 :: ((fun _ => Byte.x01) <$> p).

Definition images_of (v : option (@PyVal Image)) : list Image :=
  match v with
  | Some (VList l) => omap (fun x => match x with VImage i => Some i | _ => None end) l
  | _ => []
  end.

Definition lib : @Library Image Plt Files := {|
  plt_savefig buffer args kw p :=
    match kw !! "dpi" with
    | Some (VInt 0) => (Raise (OtherError "ValueError" "dpi must be positive"), p)
    | _ => let bytes := (getvalue buffer ++ render p)%list in
           (Ok (mkBytesIO bytes (length bytes)), p)
    end;
  plt_close p := (Ok tt, []);
  Image_open fp :=
    match drop (tell fp) (getvalue fp) with
    | [] => Raise (OtherError "PIL.UnidentifiedImageError" "cannot identify image file")
    | bytes => Ok bytes
    end;
  Image_save self args kw fs :=
    match args with
    | [VStr path] => (Ok tt, <[path := self :: images_of (kw !! "append_images")]> fs)
    | _ => (Raise (OtherError "ValueError" "unknown file extension"), fs)
    end
|}.

Definition alt_save : @SaveAlt Image :=
  fun chart fp args kw => Ok (mkBytesIO [Byte.x89; Byte.x02] 2).

(** The module as loaded with and without altair_saver. *)
Definition G_without : @Globals Image :=
  {| altair_saver_installed := false; save_alt := None |}.
Definition G_with : @Globals Image :=
  {| altair_saver_installed := true; save_alt := Some alt_save |}.

(** An imperative plotting function and a declarative one. *)
Definition scatter : @PlotFunc Image Plt Files :=
  fun args kwargs p f => (Ok VNone, (p ++ ["scatter"])%list, f).
Definition chart : @PlotFunc Image Plt Files :=
  fun args kwargs p f => (Ok (VObj "altair.vegalite.v4.api.Chart" 0), p, f).

Definition w0 : @World Image Plt Files := mkWorld [] ∅ [].

Definition dpi0 : gmap string (@PyVal Image) := {[ "dpi" := VInt 0 ]}.
Definition fmt_svg : gmap string (@PyVal Image) := {[ "fmt" := VStr "svg" ]}.
Definition format_jpg : gmap string (@PyVal Image) := {[ "format" := VStr "jpg" ]}.

(** What the import raises when altair_saver is absent. *)
Definition not_found : Exn :=
  ModuleNotFoundError "No module named 'altair_saver'".

(** The value [chart] returns, and the world after one capture of [scatter]. *)
Definition a_chart : @PyVal Image := VObj "altair.vegalite.v4.api.Chart" 0.
Definition w1 : @World Image Plt Files :=
  (wrapper2 lib G_without [] ∅ scatter [VInt 1] ∅ w0).2.

(** A plotting function that raises on the frame of index 1, after having
    drawn; and one that behaves as [scatter] on an empty figure only. *)
Definition flaky : @PlotFunc Image Plt Files :=
  fun args kwargs p f =>
    match args with
    | [VInt 1] => (Raise (OtherError "ValueError" "no data for frame 1"),
                   (p ++ ["scatter"])%list, f)
    | _ => (Ok VNone, (p ++ ["scatter"])%list, f)
    end.
Definition scatter_once : @PlotFunc Image Plt Files :=
  fun args kwargs p f =>
    match p with
    | [] => (Ok VNone, ["scatter"], f)
    | _ => (Ok (VInt 0), p, f)
    end.

(** A plotting function that returns the axes it drew on. *)
Definition scatter_axes : @PlotFunc Image Plt Files :=
  fun args kwargs p f =>
    (Ok (VObj "matplotlib.axes._subplots.AxesSubplot" 3), (p ++ ["scatter"])%list, f).

End Demo.

(** ** A library with several figures and a picky encoder *)

Module Figs.

(** pyplot keeps the open figures, the current one first; each figure is the
    list of artists drawn on it.  [plt.savefig] renders the current figure
    (opening one if there is none) and [plt.close()] closes the current figure
    only.  The encoder refuses a path that does not end in ".gif". *)
Definition Image : Type := list Byte.byte.
Definition Plt : Type := list (list string).
Definition Files : Type := gmap string (list Image).

Definition render (fig : list string) : list Byte.byte :=
  Byte.x89 :: ((fun _ => Byte.x01) <$> fig).

(** [s.endswith(suffix)] *)
Fixpoint endswith (suffix s : string) : bool :=
  String.eqb s suffix ||
  match s with
  | EmptyString => false
  | String _ s' => endswith suffix s'
  end.

Definition lib : @Library Image Plt Files := {|
  plt_savefig buffer args kw p :=
    let p := match p with [] => [[]] | _ => p end in
    let bytes := (getvalue buffer ++ render (List.hd [] p))%list in
    (Ok (mkBytesIO bytes (length bytes)), p);
  plt_close p := (Ok tt, List.tl p);
  Image_open fp :=
    match drop (tell fp) (getvalue fp) with
    | [] => Raise (OtherError "PIL.UnidentifiedImageError" "cannot identify image file")
    | bytes => Ok bytes
    end;
  Image_save self args kw fs :=
    match args with
    | [VStr path] =>
        if endswith ".gif" path
        then (Ok tt, <[path := self :: Demo.images_of (kw !! "append_images")]> fs)
        else (Raise (OtherError "ValueError" "unknown file extension"), fs)
    | _ => (Raise (OtherError "ValueError" "unknown file extension"), fs)
    end
|}.

Definition G : @Globals Image :=
  {| altair_saver_installed := false; save_alt := None |}.

(** [plt.figure(); plt.plot(a); plt.figure(); plt.plot(b)]: two figures, the
    second one current. *)
Definition two_figures : @PlotFunc Image Plt Files :=
  fun args kwargs p f => (Ok VNone, ["b"] :: ["a"] :: p, f).

(** [plt.scatter(x, y)]: draws on the current figure, opening one if there
    is none. *)
Definition scatter : @PlotFunc Image Plt Files :=
  fun args kwargs p f =>
    (Ok VNone,
     match p with
     | [] => [["scatter"]]
     | fig :: others => (fig ++ ["scatter"])%list :: others
     end,
     f).

Definition w0 : @World Image Plt Files := mkWorld [] ∅ [].

(** The world after one capture of [two_figures]. *)
Definition w1 : @World Image Plt Files :=
  (wrapper2 lib G [] ∅ two_figures [] ∅ w0).2.

End Figs.

(** ** Properties *)

(** *** The runtime fragment *)

Lemma append_String (a : ascii) (s t : string) :
  String a s ++ t = String a (s ++ t).
Proof. reflexivity. Qed.

Lemma append_Empty (t : string) : "" ++ t = t.
Proof. reflexivity. Qed.

Lemma startswith_spec (p s : string) :
  startswith p s = true <-> exists post, s = p ++ post.
Proof.
  revert s. induction p as [|a p IH]; intros s; simpl.
  - split; [intros _; by exists s | done].
  - destruct s as [|b s].
    + split; [done | intros [post H]; discriminate].
    + destruct (Ascii.eqb_spec a b) as [->|Hne].
      * rewrite IH. split; intros [post H]; exists post;
          rewrite append_String in *; congruence.
      * split; [done | intros [post H]; rewrite append_String in H; congruence].
Qed.

Lemma str_contains_spec (needle hay : string) :
  str_contains needle hay = true <-> exists pre post, hay = pre ++ needle ++ post.
Proof.
  induction hay as [|c hay IH]; simpl.
  - rewrite orb_false_r, startswith_spec. split.
    + intros [post H]. by exists "", post.
    + intros [pre [post H]]. destruct pre.
      * rewrite append_Empty in H. by exists post.
      * rewrite append_String in H. discriminate.
  - rewrite orb_true_iff, startswith_spec, IH. split.
    + intros [[post H]|[pre [post H]]].
      * by exists "", post.
      * exists (String c pre), post. rewrite append_String. by rewrite H.
    + intros [pre [post H]]. destruct pre as [|c' pre].
      * left. rewrite append_Empty in H. by exists post.
      * right. rewrite append_String in H. exists pre, post. congruence.
Qed.

Lemma call_keywords_single {V} (fname key : string) (v : V) (dstar : gmap string V) :
  call_keywords fname [(key, v)] dstar =
  match dstar !! key with
  | Some _ => Raise (multiple_values fname key)
  | None => Ok (<[key := v]> dstar)
  end.
Proof.
  unfold call_keywords. cbn [List.find fst].
  case_bool_decide as H.
  - destruct H as [x ->]. done.
  - destruct (dstar !! key) eqn:E; [exfalso; eauto |].
    f_equal. cbn. rewrite insert_empty. by rewrite <- insert_union_singleton_l.
Qed.

Lemma call_keywords_empty {V} (fname : string) (explicit : list (string * V)) :
  call_keywords fname explicit ∅ = Ok (list_to_map explicit).
Proof.
  unfold call_keywords.
  replace (List.find _ explicit) with (@None (string * V)).
  - by rewrite (right_id_L ∅ (∪)).
  - induction explicit as [|kv l IH]; [done|].
    cbn [List.find]. rewrite lookup_empty.
    rewrite bool_decide_eq_false_2 by (intros [? ?]; done). done.
Qed.

(** *** The module *)

Section Properties.
Context {Image Plt Files : Type}.
Variable lib : @Library Image Plt Files.
Variable G : @Globals Image.

Local Abbreviation World := (@World Image Plt Files).
Local Abbreviation PlotFunc := (@PlotFunc Image Plt Files).
Local Abbreviation PyVal := (@PyVal Image).
Local Abbreviation PosArgs := (list PyVal).
Local Abbreviation Kwargs := (gmap string PyVal).

(** The keyword dictionary [save] hands to the encoder. *)
Local Abbreviation encoder_options rest duration :=
  (<["save_all" := VBool true]>
   (<["append_images" := VList (VImage <$> rest)]>
    (<["optimize" := VBool true]>
     (<["duration" := VInt duration]>
      (<["loop" := VInt 0]> (∅ : Kwargs)))))).

Lemma save_cons (first : Image) (rest : list Image) (path : PyVal)
    (duration : option Z) (w : World) :
  let kw := encoder_options rest (default 100 duration) in
  let out := Image_save lib first [path] kw (file_system w) in
  save lib (first :: rest) path duration w =
    (match out.1 with Ok _ => Ok VNone | Raise e => Raise e end,
     mkWorld (plt_state w) out.2 (call_log w ++ [Call_Image_save first [path] kw])).
Proof.
  cbv zeta. unfold save, call_Image_save, bind, lift, ret.
  cbn [getitem0]. rewrite call_keywords_empty.
  unfold slice_from1. cbn [drop list_to_map foldr uncurry fst snd].
  cbn [log_call plt_state file_system call_log].
  destruct (Image_save lib first [path] _ (file_system w)) as [[[]|e] fs];
    reflexivity.
Qed.

Lemma wrapper2_func_raises (sa : PosArgs) (sk : Kwargs) (func : PlotFunc)
    (args : PosArgs) (kwargs : Kwargs) (w : World) e p f :
  func args kwargs (plt_state w) (file_system w) = (Raise e, p, f) ->
  wrapper2 lib G sa sk func args kwargs w = (Raise e, after_func args kwargs p f w).
Proof.
  intros H. unfold wrapper2, bind, call_func.
  cbn [log_call plt_state file_system call_log]. by rewrite H.
Qed.

Lemma wrapper2_func_returns (sa : PosArgs) (sk : Kwargs) (func : PlotFunc)
    (args : PosArgs) (kwargs : Kwargs) (w : World) plot p f :
  func args kwargs (plt_state w) (file_system w) = (Ok plot, p, f) ->
  wrapper2 lib G sa sk func args kwargs w =
    match (if is_altair plot then chart_mode G plot BytesIO_new sa sk
           else imperative_mode lib BytesIO_new sa sk)
          (after_func args kwargs p f w) with
    | (Ok buffer, w1) =>
        (Image_open lib (seek buffer 0), log_call (Call_Image_open (seek buffer 0)) w1)
    | (Raise e, w1) => (Raise e, w1)
    end.
Proof.
  intros H. unfold wrapper2, bind at 1, call_func.
  cbn [log_call plt_state file_system call_log]. rewrite H.
  fold (after_func args kwargs p f w). unfold bind, ret, call_Image_open.
  set (arm := if is_altair plot then _ else _).
  destruct (arm (after_func args kwargs p f w)) as [[buffer|e] w1]; [|done].
  by destruct (Image_open lib (seek buffer 0)).
Qed.

Lemma chart_mode_eq (plot : PyVal) (buffer : BytesIO) (sa : PosArgs) (sk : Kwargs)
    (w : World) :
  chart_mode G plot buffer sa sk w =
    if negb (altair_saver_installed G)
    then (Raise (MissingExtension "pip install gif[altair]"), w)
    else match save_alt G with
         | None => (Raise (NameError "name 'save_alt' is not defined"), w)
         | Some sv =>
             match sk !! "fmt" with
             | Some _ => (Raise (multiple_values "save" "fmt"), w)
             | None =>
                 let kw := <["fmt" := VStr "png"]> sk in
                 (sv plot buffer sa kw, log_call (Call_save_alt plot buffer sa kw) w)
             end
         end.
Proof.
  unfold chart_mode, call_save_alt, raise.
  destruct (negb _); [done|]. destruct (save_alt G) as [sv|]; [|done].
  unfold bind, lift. rewrite call_keywords_single.
  by destruct (sk !! "fmt").
Qed.

Lemma call_savefig_eq (buffer : BytesIO) (sa : PosArgs) (sk : Kwargs) (w : World) :
  call_savefig lib buffer sa sk w =
    match sk !! "format" with
    | Some _ => (Raise (multiple_values "savefig" "format"), w)
    | None =>
        let kw := <["format" := VStr "png"]> sk in
        let out := plt_savefig lib buffer sa kw (plt_state w) in
        (out.1, mkWorld out.2 (file_system w)
                  (call_log w ++ [Call_savefig buffer sa kw]))
    end.
Proof.
  unfold call_savefig, bind, lift. rewrite call_keywords_single.
  destruct (sk !! "format"); [done|].
  cbn [log_call plt_state file_system call_log].
  by destruct (plt_savefig lib buffer sa _ (plt_state w)).
Qed.

Lemma imperative_mode_eq (buffer : BytesIO) (sa : PosArgs) (sk : Kwargs) (w : World) :
  imperative_mode lib buffer sa sk w =
    match call_savefig lib buffer sa sk w with
    | (Raise e, w1) => (Raise e, w1)
    | (Ok written, w1) =>
        let out := plt_close lib (plt_state w1) in
        (match out.1 with Ok _ => Ok written | Raise e => Raise e end,
         mkWorld out.2 (file_system w1) (call_log w1 ++ [Call_close]))
    end.
Proof.
  unfold imperative_mode, bind, ret, call_close.
  destruct (call_savefig lib buffer sa sk w) as [[written|e] w1]; [|done].
  cbn [log_call plt_state file_system call_log].
  by destruct (plt_close lib (plt_state w1)) as [[[]|e] p].
Qed.

(** The decorator only closes over its arguments: a decorated function is
    [wrapper2] with the decorator's options and the plotting function fixed. *)
Lemma frame_is_wrapper2 (sa : PosArgs) (sk : Kwargs) (func : PlotFunc) :
  frame lib G sa sk func = wrapper2 lib G sa sk func.
Proof. reflexivity. Qed.

(** **** The sequence encoder *)

(** C2: for a non-empty sequence, [save] makes exactly one call to the
    encoder: on the first frame, with the path as only positional argument
    and the keywords save_all=True, append_images=(the remaining frames, in
    order), optimize=True, duration=(the given duration, 100 when left out)
    and loop=0.  It returns None when that call returns. *)
Theorem save_encodes_first_with_rest (first : Image) (rest : list Image)
    (path : PyVal) (duration : option Z) (w : World) :
  let given := match duration with Some d => d | None => 100 end in
  let kw := encoder_options rest given in
  let out := Image_save lib first [path] kw (file_system w) in
  save lib (first :: rest) path duration w =
    (match out.1 with Ok _ => Ok VNone | Raise e => Raise e end,
     mkWorld (plt_state w) out.2 (call_log w ++ [Call_Image_save first [path] kw])).
Proof.
  cbv zeta. rewrite save_cons. by destruct duration.
Qed.

(** C5: [save] on an empty sequence raises the IndexError of [frames[0]];
    the encoder is not called and the file system is untouched. *)
Theorem save_empty_IndexError (path : PyVal) (duration : option Z) (w : World) :
  save lib [] path duration w = (Raise (IndexError "list index out of range"), w)
  /\ getitem0 (@nil Image) = Raise (IndexError "list index out of range").
Proof. split; reflexivity. Qed.


(** **** The frame capturer *)

(** C1: when the import of altair_saver raised at load time and the module
    nevertheless loaded, a call whose plotting function returns an Altair
    object raises MissingExtension with the message naming the extra.  The
    world is the one the plotting function left: no renderer, no decoder was
    called. *)
Theorem chart_without_adapter_raises (import_error : Exn)
    (sa : PosArgs) (sk : Kwargs) (func : PlotFunc) (args : PosArgs)
    (kwargs : Kwargs) (w : World) (plot : PyVal) (p : Plt) (f : Files) :
  load_module (ImportRaises import_error) = Ok G ->
  func args kwargs (plt_state w) (file_system w) = (Ok plot, p, f) ->
  is_altair plot = true ->
  wrapper2 lib G sa sk func args kwargs w =
    (Raise (MissingExtension "pip install gif[altair]"),
     mkWorld p f (call_log w ++ [Call_func args kwargs])) /\
  Forall (fun c => is_render_call c = false) [Call_func args kwargs].
Proof.
  intros Hload Hfunc Halt. split; [|by repeat constructor].
  assert (altair_saver_installed G = false) as Hflag.
  { unfold load_module in Hload.
    destruct (is_ModuleNotFoundError import_error); by simplify_eq. }
  rewrite (wrapper2_func_returns _ _ _ _ _ _ _ _ _ Hfunc), Halt, chart_mode_eq.
  by rewrite Hflag.
Qed.

Local Ltac mode_leaf :=
  repeat split; try done; try (by repeat constructor);
  try (by intros; simplify_eq).

Lemma is_altair_spec (plot : PyVal) :
  is_altair plot = true <-> exists pre post, type_str plot = pre ++ "altair" ++ post.
Proof. apply str_contains_spec. Qed.

(** C4: the mode is decided by the type name of the value the plotting
    function returned.  If [str(type(plot))] contains "altair" the capture
    takes the chart path: pyplot is never called and its state stays as the
    plotting function left it; without the adapter the capture raises
    MissingExtension, with it the first call is [save_alt] on the returned
    object.  Otherwise, and in particular for None, the capture takes the
    imperative path: [save_alt] is never called and the first call is
    [plt.savefig]. *)
Theorem mode_selected_by_type_name (sa : PosArgs) (sk : Kwargs) (func : PlotFunc)
    (args : PosArgs) (kwargs : Kwargs) (w : World) (plot : PyVal) (p : Plt)
    (f : Files) (r : Result Image) (w' : World) :
  func args kwargs (plt_state w) (file_system w) = (Ok plot, p, f) ->
  wrapper2 lib G sa sk func args kwargs w = (r, w') ->
  exists calls,
    call_log w' = (call_log w ++ Call_func args kwargs :: calls)%list /\
    ((exists pre post, type_str plot = pre ++ "altair" ++ post) ->
       Forall (fun c => is_pyplot_call c = false) calls /\
       plt_state w' = p /\
       (altair_saver_installed G = false ->
          r = Raise (MissingExtension "pip install gif[altair]") /\ calls = []) /\
       (forall sv, altair_saver_installed G = true -> save_alt G = Some sv ->
          sk !! "fmt" = None ->
          head calls =
            Some (Call_save_alt plot BytesIO_new sa (<["fmt" := VStr "png"]> sk)))) /\
    (~ (exists pre post, type_str plot = pre ++ "altair" ++ post) ->
       Forall (fun c => is_save_alt_call c = false) calls /\
       (sk !! "format" = None ->
          head calls =
            Some (Call_savefig BytesIO_new sa (<["format" := VStr "png"]> sk)))) /\
    ~ (exists pre post, type_str (VNone : PyVal) = pre ++ "altair" ++ post).
Proof.
  intros Hfunc Hrun.
  rewrite (wrapper2_func_returns _ _ _ _ _ _ _ _ _ Hfunc) in Hrun.
  assert (~ (exists pre post, type_str (VNone : PyVal) = pre ++ "altair" ++ post))
    as Hnone.
  { rewrite <- is_altair_spec. by vm_compute. }
  unfold after_func, log_call in Hrun.
  destruct (is_altair plot) eqn:Halt.
  - rewrite chart_mode_eq in Hrun.
    pose proof (proj1 (is_altair_spec plot) Halt) as Hyes.
    destruct (altair_saver_installed G) eqn:Hflag; cbn [negb] in Hrun;
      [destruct (save_alt G) as [sv|] eqn:Hsv;
        [destruct (sk !! "fmt") eqn:Hfmt;
          [|cbv zeta in Hrun; destruct (sv plot BytesIO_new sa _) as [buffer|e]]|]|];
      simplify_eq; eexists;
      (split; [cbn; rewrite <- ?app_assoc; reflexivity|]);
      (split; [intros _|split; [tauto|done]]);
      mode_leaf.
  - rewrite imperative_mode_eq, call_savefig_eq in Hrun.
    assert (~ (exists pre post, type_str plot = pre ++ "altair" ++ post)) as Hno.
    { rewrite <- is_altair_spec. congruence. }
    destruct (sk !! "format") eqn:Hformat;
      [|cbv zeta in Hrun;
        destruct (plt_savefig lib BytesIO_new sa _ _) as [[written|e] p1];
        cbn [fst snd plt_state file_system call_log] in Hrun;
        [destruct (plt_close lib p1) as [[[]|e] p2]; cbn [fst snd] in Hrun|]];
      simplify_eq; eexists;
      (split; [cbn; rewrite <- ?app_assoc; reflexivity|]);
      (split; [tauto|split; [intros _|done]]);
      mode_leaf.
Qed.

Lemma wrapper2_ext (sa : PosArgs) (sk : Kwargs) (func1 func2 : PlotFunc)
    (args : PosArgs) (kwargs : Kwargs) (w : World) :
  func1 args kwargs (plt_state w) (file_system w) =
  func2 args kwargs (plt_state w) (file_system w) ->
  wrapper2 lib G sa sk func1 args kwargs w = wrapper2 lib G sa sk func2 args kwargs w.
Proof.
  intros H. unfold wrapper2, bind at 1 3, call_func.
  cbn [log_call plt_state file_system call_log]. by rewrite H.
Qed.

(** C3, as amended: a successful capture on the imperative path has
    rendered the figure state the plotting function left, with format="png",
    into the buffer, has then called [plt.close()], and nothing has touched
    pyplot's state since: the state after the capture is the one
    [plt.close()] returned.  What is released is what [plt.close()] releases:
    for any property [clean] that [plt.close()] establishes, the next capture
    starts from a clean state, so two plotting functions that agree on clean
    states give the same second capture. *)
Theorem imperative_capture_releases_figure (clean : Plt -> Prop)
    (sa : PosArgs) (sk : Kwargs) (func : PlotFunc) (args : PosArgs)
    (kwargs : Kwargs) (w : World) (plot : PyVal) (p : Plt) (f : Files)
    (img : Image) (w' : World) :
  (forall p0 p1, plt_close lib p0 = (Ok tt, p1) -> clean p1) ->
  func args kwargs (plt_state w) (file_system w) = (Ok plot, p, f) ->
  is_altair plot = false ->
  wrapper2 lib G sa sk func args kwargs w = (Ok img, w') ->
  (exists kw written p1,
     kw !! "format" = Some (VStr "png") /\
     plt_savefig lib BytesIO_new sa kw p = (Ok written, p1) /\
     plt_close lib p1 = (Ok tt, plt_state w') /\
     Image_open lib (seek written 0) = Ok img /\
     call_log w' =
       (call_log w ++ [Call_func args kwargs; Call_savefig BytesIO_new sa kw;
                       Call_close; Call_Image_open (seek written 0)])%list) /\
  clean (plt_state w') /\
  (forall (func1 func2 : PlotFunc) sa2 sk2 args2 kwargs2,
     (forall a k p0 f0, clean p0 -> func1 a k p0 f0 = func2 a k p0 f0) ->
     wrapper2 lib G sa2 sk2 func1 args2 kwargs2 w' =
     wrapper2 lib G sa2 sk2 func2 args2 kwargs2 w').
Proof.
  intros Hclose Hfunc Halt Hrun.
  rewrite (wrapper2_func_returns _ _ _ _ _ _ _ _ _ Hfunc), Halt in Hrun.
  rewrite imperative_mode_eq, call_savefig_eq in Hrun.
  unfold after_func, log_call in Hrun.
  destruct (sk !! "format") eqn:Hformat; [done|]. cbv zeta in Hrun.
  destruct (plt_savefig lib BytesIO_new sa _ _) as [[written|e] p1] eqn:Hsave;
    cbn [fst snd plt_state file_system call_log] in Hrun; [|done].
  destruct (plt_close lib p1) as [[[]|e] p2] eqn:Hcl;
    cbn [fst snd] in Hrun; [|done].
  injection Hrun as Hopen <-. cbn [plt_state call_log].
  assert (clean p2) as Hclean by eauto.
  split; [|split; [done|]].
  - eexists _, written, p1. rewrite lookup_insert_eq.
    repeat split; try done. by rewrite <- !app_assoc.
  - intros func1 func2 sa2 sk2 args2 kwargs2 Hagree.
    apply wrapper2_ext. by apply Hagree.
Qed.

(** C9: on the imperative path, when [plt.savefig] raises, the capture
    raises the same exception at once: [plt.close()] is not called, and
    pyplot's state is the one [plt.savefig] left, which is what the plotting
    function of the next capture runs on. *)
Theorem savefig_failure_skips_close (sa : PosArgs) (sk : Kwargs) (func : PlotFunc)
    (args : PosArgs) (kwargs : Kwargs) (w : World) (plot : PyVal) (p : Plt)
    (f : Files) (e : Exn) (p1 : Plt) :
  func args kwargs (plt_state w) (file_system w) = (Ok plot, p, f) ->
  is_altair plot = false ->
  sk !! "format" = None ->
  plt_savefig lib BytesIO_new sa (<["format" := VStr "png"]> sk) p = (Raise e, p1) ->
  let calls := [Call_func args kwargs;
                Call_savefig BytesIO_new sa (<["format" := VStr "png"]> sk)] in
  let w' := mkWorld p1 f (call_log w ++ calls) in
  wrapper2 lib G sa sk func args kwargs w = (Raise e, w') /\
  Forall (fun c => is_close_call c = false) calls /\
  (forall (func1 func2 : PlotFunc) sa2 sk2 args2 kwargs2,
     (forall a k f0, func1 a k p1 f0 = func2 a k p1 f0) ->
     wrapper2 lib G sa2 sk2 func1 args2 kwargs2 w' =
     wrapper2 lib G sa2 sk2 func2 args2 kwargs2 w').
Proof.
  intros Hfunc Halt Hformat Hsave. cbv zeta.
  split; [|split; [by repeat constructor|]].
  - rewrite (wrapper2_func_returns _ _ _ _ _ _ _ _ _ Hfunc), Halt.
    rewrite imperative_mode_eq, call_savefig_eq, Hformat.
    unfold after_func. cbv zeta. cbn [plt_state file_system call_log].
    rewrite Hsave. cbn [fst snd]. by rewrite <- app_assoc.
  - intros func1 func2 sa2 sk2 args2 kwargs2 Hagree.
    apply wrapper2_ext. apply Hagree.
Qed.



(** C10, as amended: the format keyword is fixed by the wrapper.  With
    'format' among the decorator's keyword options, every capture that
    reaches the imperative path raises the TypeError of a keyword given
    twice; with 'fmt' among them and the adapter imported, so does every
    capture that reaches the chart path.  In both cases the renderer is not
    entered: the world is the one the plotting function left. *)
Theorem fixed_png_keyword_clash (sa : PosArgs) (sk : Kwargs) (func : PlotFunc)
    (args : PosArgs) (kwargs : Kwargs) (w : World) (plot : PyVal) (p : Plt)
    (f : Files) :
  func args kwargs (plt_state w) (file_system w) = (Ok plot, p, f) ->
  (is_altair plot = false /\ is_Some (sk !! "format")) \/
  (is_altair plot = true /\ is_Some (sk !! "fmt") /\
   exists sv, load_module (Imported sv) = Ok G) ->
  wrapper2 lib G sa sk func args kwargs w =
    (Raise (TypeError
       (if is_altair plot
        then "save() got multiple values for keyword argument 'fmt'"
        else "savefig() got multiple values for keyword argument 'format'")),
     mkWorld p f (call_log w ++ [Call_func args kwargs])).
Proof.
  intros Hfunc [[Halt [v Hkey]]|(Halt & [v Hkey] & sv & Hload)];
    rewrite (wrapper2_func_returns _ _ _ _ _ _ _ _ _ Hfunc), Halt.
  - by rewrite imperative_mode_eq, call_savefig_eq, Hkey.
  - assert (altair_saver_installed G = true) as Hflag
      by (by injection Hload as <-).
    assert (save_alt G = Some sv) as Hsv by (by injection Hload as <-).
    by rewrite chart_mode_eq, Hflag, Hsv, Hkey.
Qed.

End Properties.

(** *** The theorems at work on the concrete library *)

Section Runs.
Import Demo.

Example load_without_adapter : load_module (ImportRaises not_found) = Ok G_without.
Proof. reflexivity. Qed.

Example load_with_adapter : load_module (Imported alt_save) = Ok G_with.
Proof. reflexivity. Qed.

(** An import that fails for another reason aborts the load: no handler. *)
Example load_other_error :
  load_module (@ImportRaises Image (OtherError "ImportError" "cannot import name 'save'"))
  = Raise (OtherError "ImportError" "cannot import name 'save'").
Proof. reflexivity. Qed.

Example type_names :
  is_altair a_chart = true /\
  is_altair (VNone : @PyVal Image) = false /\
  is_altair (VObj "matplotlib.collections.PathCollection" 7 : @PyVal Image) = false.
Proof. by vm_compute. Qed.

Example capture_scatter :
  wrapper2 lib G_without [] ∅ scatter [VInt 1] ∅ w0 = (Ok [Byte.x89; Byte.x01], w1)
  /\ plt_state w1 = [].
Proof. by vm_compute. Qed.

Example capture_chart :
  (wrapper2 lib G_with [] ∅ chart [VInt 1] ∅ w0).1 = Ok [Byte.x89; Byte.x02].
Proof. by vm_compute. Qed.

Example save_two_frames :
  let out := save lib [[Byte.x01]; [Byte.x02]] (VStr "out.gif") (Some 50) w0 in
  out.1 = Ok VNone /\
  file_system out.2 !! "out.gif" = Some [[Byte.x01]; [Byte.x02]].
Proof. by vm_compute. Qed.

Example save_one_frame :
  let out := save lib [[Byte.x01]] (VStr "out.gif") None w0 in
  out.1 = Ok VNone /\ file_system out.2 !! "out.gif" = Some [[Byte.x01]].
Proof. by vm_compute. Qed.

Lemma chart_without_adapter_raises_witness :
  load_module (ImportRaises not_found) = Ok G_without /\
  chart [VInt 1] ∅ [] ∅ = (Ok a_chart, [], ∅) /\
  is_altair a_chart = true /\
  wrapper2 lib G_without [] dpi0 chart [VInt 1] ∅ w0 =
    (Raise (MissingExtension "pip install gif[altair]"),
     mkWorld [] ∅ [Call_func [VInt 1] ∅]).
Proof.
  assert (load_module (ImportRaises not_found) = Ok G_without) as Hload
    by reflexivity.
  assert (chart [VInt 1] ∅ [] ∅ = (Ok a_chart, [], ∅)) as Hfunc by reflexivity.
  assert (is_altair a_chart = true) as Halt by reflexivity.
  split; [exact Hload|]. split; [exact Hfunc|]. split; [exact Halt|].
  exact (proj1
    (chart_without_adapter_raises lib G_without not_found [] dpi0 chart
       [VInt 1] ∅ w0 a_chart [] ∅ Hload Hfunc Halt)).
Defined.

Lemma mode_selected_by_type_name_witness :
  scatter [VInt 1] ∅ [] ∅ = (Ok VNone, ["scatter"], ∅) /\
  wrapper2 lib G_without [] ∅ scatter [VInt 1] ∅ w0 = (Ok [Byte.x89; Byte.x01], w1) /\
  exists calls,
    call_log w1 = Call_func [VInt 1] ∅ :: calls /\
    Forall (fun c => is_save_alt_call c = false) calls /\
    head calls = Some (Call_savefig BytesIO_new [] (<["format" := VStr "png"]> ∅)).
Proof.
  assert (scatter [VInt 1] ∅ [] ∅ = (Ok VNone, ["scatter"], ∅)) as Hfunc
    by reflexivity.
  assert (wrapper2 lib G_without [] ∅ scatter [VInt 1] ∅ w0
          = (Ok [Byte.x89; Byte.x01], w1)) as Hrun by reflexivity.
  split; [exact Hfunc|]. split; [exact Hrun|].
  destruct (mode_selected_by_type_name lib G_without [] ∅ scatter [VInt 1] ∅ w0
              VNone ["scatter"] ∅ (Ok [Byte.x89; Byte.x01]) w1 Hfunc Hrun)
    as (calls & Hlog & _ & Himp & Hnone).
  exists calls. split; [exact Hlog|].
  destruct (Himp Hnone) as [Hno Hfirst]. split; [exact Hno|].
  apply Hfirst. reflexivity.
Defined.

Lemma imperative_capture_releases_figure_witness :
  (forall p0 p1 : Plt, plt_close lib p0 = (Ok tt, p1) -> p1 = []) /\
  scatter [VInt 1] ∅ [] ∅ = (Ok VNone, ["scatter"], ∅) /\
  is_altair (VNone : @PyVal Image) = false /\
  wrapper2 lib G_without [] ∅ scatter [VInt 1] ∅ w0 = (Ok [Byte.x89; Byte.x01], w1) /\
  plt_state w1 = [].
Proof.
  assert (forall p0 p1 : Plt, plt_close lib p0 = (Ok tt, p1) -> p1 = []) as Hclose.
  { intros p0 p1 H. injection H as H. symmetry. exact H. }
  assert (scatter [VInt 1] ∅ [] ∅ = (Ok VNone, ["scatter"], ∅)) as Hfunc
    by reflexivity.
  assert (is_altair (VNone : @PyVal Image) = false) as Halt by reflexivity.
  assert (wrapper2 lib G_without [] ∅ scatter [VInt 1] ∅ w0
          = (Ok [Byte.x89; Byte.x01], w1)) as Hrun by reflexivity.
  split; [exact Hclose|]. split; [exact Hfunc|]. split; [exact Halt|].
  split; [exact Hrun|].
  exact (proj1 (proj2
    (imperative_capture_releases_figure lib G_without (fun p => p = []) [] ∅
       scatter [VInt 1] ∅ w0 VNone ["scatter"] ∅ [Byte.x89; Byte.x01] w1
       Hclose Hfunc Halt Hrun))).
Defined.

Lemma savefig_failure_skips_close_witness :
  scatter [VInt 1] ∅ [] ∅ = (Ok VNone, ["scatter"], ∅) /\
  is_altair (VNone : @PyVal Image) = false /\
  dpi0 !! "format" = None /\
  plt_savefig lib BytesIO_new [] (<["format" := VStr "png"]> dpi0) ["scatter"] =
    (Raise (OtherError "ValueError" "dpi must be positive"), ["scatter"]) /\
  wrapper2 lib G_without [] dpi0 scatter [VInt 1] ∅ w0 =
    (Raise (OtherError "ValueError" "dpi must be positive"),
     mkWorld ["scatter"] ∅
       [Call_func [VInt 1] ∅;
        Call_savefig BytesIO_new [] (<["format" := VStr "png"]> dpi0)]).
Proof.
  assert (scatter [VInt 1] ∅ [] ∅ = (Ok VNone, ["scatter"], ∅)) as Hfunc
    by reflexivity.
  assert (is_altair (VNone : @PyVal Image) = false) as Halt by reflexivity.
  assert (dpi0 !! "format" = None) as Hformat by reflexivity.
  assert (plt_savefig lib BytesIO_new [] (<["format" := VStr "png"]> dpi0)
            ["scatter"]
          = (Raise (OtherError "ValueError" "dpi must be positive"), ["scatter"]))
    as Hsave by reflexivity.
  split; [exact Hfunc|]. split; [exact Halt|]. split; [exact Hformat|].
  split; [exact Hsave|].
  exact (proj1
    (savefig_failure_skips_close lib G_without [] dpi0 scatter [VInt 1] ∅ w0
       VNone ["scatter"] ∅ (OtherError "ValueError" "dpi must be positive")
       ["scatter"] Hfunc Halt Hformat Hsave)).
Defined.

Lemma fixed_png_keyword_clash_witness :
  scatter [VInt 1] ∅ [] ∅ = (Ok VNone, ["scatter"], ∅) /\
  is_altair (VNone : @PyVal Image) = false /\
  format_jpg !! "format" = Some (VStr "jpg") /\
  wrapper2 lib G_with [] format_jpg scatter [VInt 1] ∅ w0 =
    (Raise (TypeError "savefig() got multiple values for keyword argument 'format'"),
     mkWorld ["scatter"] ∅ [Call_func [VInt 1] ∅]).
Proof.
  assert (scatter [VInt 1] ∅ [] ∅ = (Ok VNone, ["scatter"], ∅)) as Hfunc
    by reflexivity.
  assert (is_altair (VNone : @PyVal Image) = false) as Halt by reflexivity.
  assert (format_jpg !! "format" = Some (VStr "jpg")) as Hkey by reflexivity.
  split; [exact Hfunc|]. split; [exact Halt|]. split; [exact Hkey|].
  apply (fixed_png_keyword_clash lib G_with [] format_jpg scatter [VInt 1] ∅ w0
           VNone ["scatter"] ∅ Hfunc).
  left. split; [exact Halt|]. exists (VStr "jpg"). exact Hkey.
Defined.

(** C10 as stated fails on the chart path when the adapter is missing: with
    'fmt' among the decorator's keyword options the capture raises
    MissingExtension, which is not the TypeError of a keyword given twice. *)
Lemma keyword_clash_masked_by_missing_extension :
  load_module (ImportRaises not_found) = Ok G_without /\
  fmt_svg !! "fmt" = Some (VStr "svg") /\
  chart [VInt 1] ∅ [] ∅ = (Ok a_chart, [], ∅) /\
  is_altair a_chart = true /\
  wrapper2 lib G_without [] fmt_svg chart [VInt 1] ∅ w0 =
    (Raise (MissingExtension "pip install gif[altair]"),
     mkWorld [] ∅ [Call_func [VInt 1] ∅]) /\
  ~ (exists msg w',
       wrapper2 lib G_without [] fmt_svg chart [VInt 1] ∅ w0
       = (Raise (TypeError msg), w')).
Proof.
  repeat split; try reflexivity.
  intros (msg & w' & H). vm_compute in H. discriminate H.
Qed.

End Runs.

(** ** Further properties of the module *)

Section Protocol.
Context {Image Plt Files : Type}.
Variable lib : @Library Image Plt Files.
Variable G : @Globals Image.

Local Abbreviation World := (@World Image Plt Files).
Local Abbreviation PlotFunc := (@PlotFunc Image Plt Files).
Local Abbreviation PyVal := (@PyVal Image).
Local Abbreviation PosArgs := (list PyVal).
Local Abbreviation Kwargs := (gmap string PyVal).
Local Abbreviation Call := (@Call Image).

(** *** Which values select the chart path *)

Lemma startswith_app_other (n s : string) (b : ascii) (t : string) :
  ~ In b (list_ascii_of_string n) ->
  startswith n (s ++ String b t) = startswith n s.
Proof.
  revert s. induction n as [|a n IH]; intros s Hb; [done|].
  destruct s as [|c s].
  - rewrite append_Empty. cbn [startswith].
    destruct (Ascii.eqb_spec a b) as [->|Hne]; [|done].
    exfalso. apply Hb. by left.
  - rewrite append_String. cbn [startswith].
    rewrite IH; [done|]. intros Hin. apply Hb. by right.
Qed.

Lemma str_contains_app_other (n s : string) (b : ascii) (t : string) :
  ~ In b (list_ascii_of_string n) ->
  str_contains n (String b t) = false ->
  str_contains n (s ++ String b t) = str_contains n s.
Proof.
  intros Hb Ht. induction s as [|c s IH].
  - rewrite append_Empty, Ht. destruct n; [done|]. reflexivity.
  - rewrite append_String. cbn [str_contains]. rewrite <- append_String.
    by rewrite startswith_app_other, IH.
Qed.

Lemma is_altair_VObj (cls : string) (id : nat) :
  is_altair (VObj cls id : PyVal) = str_contains "altair" cls.
Proof.
  unfold is_altair, type_str.
  rewrite !append_String, append_Empty. cbn [str_contains startswith].
  cbn [Ascii.eqb Bool.eqb andb orb].
  apply str_contains_app_other; [|reflexivity].
  cbn. intros H. repeat (destruct H as [H|H]; [discriminate H|]). done.
Qed.

(** X1: only the class of the returned value matters, and only instances of
    a class whose qualified name contains "altair" take the chart path: None,
    booleans, integers, strings (whatever their text), lists and Pillow images
    never do. *)
Theorem chart_path_only_by_class_name (plot : PyVal) :
  is_altair plot = true <->
  exists cls id, plot = VObj cls id /\ str_contains "altair" cls = true.
Proof.
  split.
  - destruct plot as [| b | z | s | l | i | cls id]; try (by vm_compute).
    rewrite is_altair_VObj. eauto.
  - intros (cls & id & -> & H). by rewrite is_altair_VObj.
Qed.

(** *** The calls of one capture *)

Local Ltac calls_leaf :=
  cbn [fst snd call_log plt_state file_system is_ok last];
  rewrite <- ?app_assoc;
  eexists; split; [cbn [app]; reflexivity|];
  split; [by constructor|];
  split; [by intros ? [= <-]|];
  try done; intros _; eauto.

Lemma wrapper2_calls (sa : PosArgs) (sk : Kwargs) (func : PlotFunc)
    (args : PosArgs) (kwargs : Kwargs) (w : World) :
  let out := wrapper2 lib G sa sk func args kwargs w in
  exists calls,
    call_log out.2 = (call_log w ++ calls)%list /\
    capture_calls sa sk args kwargs calls /\
    (forall fp, last calls = Some (Call_Image_open fp) ->
       Image_open lib fp = out.1) /\
    (is_ok out.1 = true -> exists fp, last calls = Some (Call_Image_open fp)).
Proof.
  cbv zeta.
  destruct (func args kwargs (plt_state w) (file_system w))
    as [[[plot|e0] p] f] eqn:Hfunc.
  - rewrite (wrapper2_func_returns _ _ _ _ _ _ _ _ _ _ _ Hfunc).
    unfold after_func, log_call. destruct (is_altair plot).
    + rewrite chart_mode_eq.
      destruct (negb _); [calls_leaf|].
      destruct (save_alt G) as [sv|]; [|calls_leaf].
      destruct (sk !! "fmt"); [calls_leaf|]. cbv zeta. unfold log_call.
      destruct (sv plot BytesIO_new sa _) as [written|e]; calls_leaf.
    + rewrite imperative_mode_eq, call_savefig_eq.
      destruct (sk !! "format"); [calls_leaf|]. cbv zeta.
      cbn [plt_state file_system call_log].
      destruct (plt_savefig lib BytesIO_new sa _ p) as [[written|e] p1];
        cbn [fst snd plt_state file_system call_log]; [|calls_leaf].
      destruct (plt_close lib p1) as [[[]|e] p2]; calls_leaf.
  - rewrite (wrapper2_func_raises _ _ _ _ _ _ _ _ _ _ _ Hfunc).
    unfold after_func. calls_leaf.
Qed.

(** X2: whatever its outcome, one capture adds to the call log the call of
    the plotting function followed by a prefix of (save_alt, Image.open) or
    of (plt.savefig, plt.close, Image.open), the renderer being given a fresh
    buffer and the PNG keyword and the decoder a buffer at position 0.  It
    never calls the encoder [Image.save], and it returns exactly when its
    last call is an [Image.open] that returned; the value is that image. *)
Theorem capture_call_protocol (sa : PosArgs) (sk : Kwargs) (func : PlotFunc)
    (args : PosArgs) (kwargs : Kwargs) (w : World) :
  let out := wrapper2 lib G sa sk func args kwargs w in
  exists calls,
    call_log out.2 = (call_log w ++ calls)%list /\
    capture_calls sa sk args kwargs calls /\
    Forall (fun c => forall self a k, c <> Call_Image_save self a k) calls /\
    (forall img, out.1 = Ok img <->
       exists fp, last calls = Some (Call_Image_open fp) /\
                  Image_open lib fp = Ok img).
Proof.
  cbv zeta.
  destruct (wrapper2_calls sa sk func args kwargs w)
    as (calls & Hlog & Hshape & Hopen & Hok).
  exists calls. split; [done|]. split; [done|]. split.
  - destruct Hshape; repeat constructor; done.
  - intros img. split.
    + intros Hout. rewrite Hout in Hok, Hopen.
      destruct (Hok eq_refl) as [fp Hlast]. exists fp. eauto.
    + intros (fp & Hlast & Hdec). by rewrite <- (Hopen fp Hlast).
Qed.

(** X3: on the imperative path the value the plotting function returns is
    never used: two plotting functions that act alike on pyplot and the file
    system and return any two values of non-Altair classes give the same
    capture, result and world. *)
Theorem imperative_ignores_return_value (sa : PosArgs) (sk : Kwargs)
    (func1 func2 : PlotFunc) (args : PosArgs) (kwargs : Kwargs) (w : World)
    (v1 v2 : PyVal) (p : Plt) (f : Files) :
  func1 args kwargs (plt_state w) (file_system w) = (Ok v1, p, f) ->
  func2 args kwargs (plt_state w) (file_system w) = (Ok v2, p, f) ->
  is_altair v1 = false ->
  is_altair v2 = false ->
  wrapper2 lib G sa sk func1 args kwargs w = wrapper2 lib G sa sk func2 args kwargs w.
Proof.
  intros H1 H2 Ha1 Ha2.
  rewrite (wrapper2_func_returns _ _ _ _ _ _ _ _ _ _ _ H1).
  rewrite (wrapper2_func_returns _ _ _ _ _ _ _ _ _ _ _ H2).
  by rewrite Ha1, Ha2.
Qed.

(** X4: for a module that loaded, the capture of an Altair object is fixed
    by the outcome of the import.  If the import raised, the capture raises
    MissingExtension.  If it succeeded, the function called is the imported
    one, on the returned object, the fresh buffer, the decorator's positional
    options and its keyword options extended with fmt="png" (or the capture
    raises the TypeError of the keyword given twice); the result is
    [Image.open] of the rewound buffer.  The unbound name [save_alt] is never
    evaluated. *)
Theorem loaded_chart_capture (imp : ImportOutcome) (sa : PosArgs) (sk : Kwargs)
    (func : PlotFunc) (args : PosArgs) (kwargs : Kwargs) (w : World)
    (plot : PyVal) (p : Plt) (f : Files) :
  load_module imp = Ok G ->
  func args kwargs (plt_state w) (file_system w) = (Ok plot, p, f) ->
  is_altair plot = true ->
  let w1 := mkWorld p f (call_log w ++ [Call_func args kwargs]) in
  wrapper2 lib G sa sk func args kwargs w =
    match imp with
    | ImportRaises _ => (Raise (MissingExtension "pip install gif[altair]"), w1)
    | Imported sv =>
        match sk !! "fmt" with
        | Some _ =>
            (Raise (TypeError "save() got multiple values for keyword argument 'fmt'"),
             w1)
        | None =>
            let kw := <["fmt" := VStr "png"]> sk in
            let w2 := log_call (Call_save_alt plot BytesIO_new sa kw) w1 in
            match sv plot BytesIO_new sa kw with
            | Raise e => (Raise e, w2)
            | Ok written =>
                (Image_open lib (seek written 0),
                 log_call (Call_Image_open (seek written 0)) w2)
            end
        end
    end.
Proof.
  intros Hload Hfunc Halt. cbv zeta.
  rewrite (wrapper2_func_returns _ _ _ _ _ _ _ _ _ _ _ Hfunc), Halt, chart_mode_eq.
  unfold after_func. destruct imp as [sv|e0]; unfold load_module in Hload.
  - assert (altair_saver_installed G = true) as ->
      by (by injection Hload as <-).
    assert (save_alt G = Some sv) as -> by (by injection Hload as <-).
    cbn [negb]. destruct (sk !! "fmt"); [done|]. cbv zeta.
    by destruct (sv plot BytesIO_new sa _).
  - destruct (is_ModuleNotFoundError e0); [|done].
    assert (altair_saver_installed G = false) as ->
      by (by injection Hload as <-).
    done.
Qed.

(** *** The documented loop *)

Lemma wrapper2_log_summary (sa : PosArgs) (sk : Kwargs) (func : PlotFunc)
    (args : PosArgs) (kwargs : Kwargs) (w : World) (r : Result Image) (w' : World) :
  wrapper2 lib G sa sk func args kwargs w = (r, w') ->
  exists calls,
    call_log w' = (call_log w ++ calls)%list /\
    func_calls calls = [(args, kwargs)] /\
    (forall img, r = Ok img -> Image_open lib <$> opened_buffers calls = [Ok img]).
Proof.
  intros Hrun.
  destruct (wrapper2_calls sa sk func args kwargs w)
    as (calls & Hlog & Hshape & Hopen & Hok).
  rewrite Hrun in Hlog, Hopen, Hok. cbn [fst snd] in *.
  exists calls. split; [done|]. split; [by destruct Hshape|].
  intros img ->. destruct (Hok eq_refl) as [fp Hlast].
  specialize (Hopen fp Hlast).
  destruct Hshape; cbn [last] in Hlast; simplify_eq; cbn; by rewrite Hopen.
Qed.

Lemma imperative_success_closed (sa : PosArgs) (sk : Kwargs) (func : PlotFunc)
    (args : PosArgs) (kwargs : Kwargs) (w : World) (plot : PyVal) (p : Plt)
    (f : Files) (img : Image) (w' : World) :
  func args kwargs (plt_state w) (file_system w) = (Ok plot, p, f) ->
  is_altair plot = false ->
  wrapper2 lib G sa sk func args kwargs w = (Ok img, w') ->
  exists p1, plt_close lib p1 = (Ok tt, plt_state w').
Proof.
  intros Hfunc Halt Hrun.
  rewrite (wrapper2_func_returns _ _ _ _ _ _ _ _ _ _ _ Hfunc), Halt in Hrun.
  rewrite imperative_mode_eq, call_savefig_eq in Hrun. unfold after_func in Hrun.
  destruct (sk !! "format"); [done|]. cbv zeta in Hrun.
  destruct (plt_savefig lib BytesIO_new sa _ _) as [[written|e] p1];
    cbn [fst snd plt_state file_system call_log] in Hrun; [|done].
  destruct (plt_close lib p1) as [[[]|e] p2] eqn:Hclose;
    cbn [fst snd] in Hrun; [|done].
  injection Hrun as _ <-. by exists p1.
Qed.

(** X5: when the loop over [range(i, i + n)] of a decorated function
    returns, it has appended exactly [n] frames to the list; the plotting
    function was called once per index, in increasing order, with the index
    as only argument; and the frames are, in that order, what [Image.open]
    returned for the buffers opened during the loop. *)
Theorem range_loop_collects_in_order (sa : PosArgs) (sk : Kwargs)
    (func : PlotFunc) (n : nat) (i : Z) (collected frames : list Image)
    (w w' : World) :
  range_loop (wrapper2 lib G sa sk func) i n collected w = (Ok frames, w') ->
  exists new calls,
    frames = (collected ++ new)%list /\
    length new = n /\
    call_log w' = (call_log w ++ calls)%list /\
    func_calls calls = (fun z => ([VInt z], ∅)) <$> seqZ i (Z.of_nat n) /\
    Image_open lib <$> opened_buffers calls = Ok <$> new.
Proof.
  revert i collected w. induction n as [|n IH]; intros i collected w Hloop.
  - injection Hloop as <- <-. exists [], [].
    by rewrite !app_nil_r.
  - cbn [range_loop] in Hloop. unfold bind in Hloop.
    destruct (wrapper2 lib G sa sk func [VInt i] ∅ w) as [[frame|e] w1] eqn:Hcap;
      [|done].
    destruct (wrapper2_log_summary _ _ _ _ _ _ _ _ Hcap)
      as (calls1 & Hlog1 & Hfunc1 & Hopen1).
    destruct (IH _ _ _ Hloop) as (new & calls & -> & Hlen & Hlog & Hfunc & Hopen).
    exists (frame :: new), (calls1 ++ calls)%list.
    split; [by rewrite <- app_assoc|]. split; [by rewrite <- Hlen|].
    split; [by rewrite Hlog, Hlog1, <- app_assoc|].
    unfold func_calls, opened_buffers in *. rewrite !omap_app, fmap_app.
    rewrite Hfunc1, Hfunc, (Hopen1 frame eq_refl), Hopen.
    rewrite Nat2Z.inj_succ, (seqZ_cons i) by lia.
    by rewrite Z.pred_succ, Z.add_1_r.
Qed.

(** X6: when the loop raises, it stopped at the first capture that raised:
    the captures of the [j] indices before it returned, the exception and
    the world are those of the capture of index [i + j], and the plotting
    function was called for the indices [i] to [i + j] only. *)
Theorem range_loop_stops_at_first_failure (sa : PosArgs) (sk : Kwargs)
    (func : PlotFunc) (n : nat) (i : Z) (collected : list Image)
    (w w' : World) (e : Exn) :
  range_loop (wrapper2 lib G sa sk func) i n collected w = (Raise e, w') ->
  exists (j : nat) frames_j w_j calls,
    (j < n)%nat /\
    range_loop (wrapper2 lib G sa sk func) i j collected w = (Ok frames_j, w_j) /\
    wrapper2 lib G sa sk func [VInt (i + Z.of_nat j)] ∅ w_j = (Raise e, w') /\
    call_log w' = (call_log w ++ calls)%list /\
    func_calls calls = (fun z => ([VInt z], ∅)) <$> seqZ i (Z.of_nat (S j)).
Proof.
  revert i collected w. induction n as [|n IH]; intros i collected w Hloop;
    [done|].
  cbn [range_loop] in Hloop. unfold bind in Hloop.
  destruct (wrapper2 lib G sa sk func [VInt i] ∅ w) as [[frame|e1] w1] eqn:Hcap.
  - destruct (wrapper2_log_summary _ _ _ _ _ _ _ _ Hcap)
      as (calls1 & Hlog1 & Hfunc1 & _).
    destruct (IH _ _ _ Hloop) as (j & frames_j & w_j & calls & Hj & Hpre & Hfail & Hlog & Hfunc).
    exists (S j), frames_j, w_j, (calls1 ++ calls)%list.
    split; [lia|]. split.
    { cbn [range_loop]. unfold bind. by rewrite Hcap. }
    split.
    { by replace (i + Z.of_nat (S j)) with (i + 1 + Z.of_nat j) by lia. }
    split; [by rewrite Hlog, Hlog1, <- app_assoc|].
    unfold func_calls in *. rewrite omap_app, Hfunc1, Hfunc.
    rewrite (Nat2Z.inj_succ (S j)), (seqZ_cons i) by lia.
    by rewrite Z.pred_succ, Z.add_1_r.
  - injection Hloop as <- <-.
    destruct (wrapper2_log_summary _ _ _ _ _ _ _ _ Hcap)
      as (calls1 & Hlog1 & Hfunc1 & _).
    exists 0%nat, collected, w, calls1.
    split; [lia|]. split; [done|]. split; [by rewrite Z.add_0_r|].
    split; [done|]. by rewrite Hfunc1.
Qed.

(** X7: in a loop of captures of a plotting function that never returns an
    Altair object, every call of the plotting function runs on a figure
    state that [plt.close()] produced, provided the loop starts on such a
    state: for any property [clean] that [plt.close()] establishes and that
    holds at the start, two such functions that agree on clean states give
    the same loop, result and world. *)
Theorem imperative_loop_runs_on_clean_figures (clean : Plt -> Prop)
    (sa : PosArgs) (sk : Kwargs) (func1 func2 : PlotFunc) (n : nat) (i : Z)
    (collected : list Image) (w : World) :
  (forall p0 p1, plt_close lib p0 = (Ok tt, p1) -> clean p1) ->
  clean (plt_state w) ->
  (forall a k p0 f0, clean p0 -> func1 a k p0 f0 = func2 a k p0 f0) ->
  (forall a k p0 f0 v p1 f1,
     func1 a k p0 f0 = (Ok v, p1, f1) -> is_altair v = false) ->
  range_loop (wrapper2 lib G sa sk func1) i n collected w =
  range_loop (wrapper2 lib G sa sk func2) i n collected w.
Proof.
  intros Hclose Hclean Hagree Himp.
  revert i collected w Hclean.
  induction n as [|n IH]; intros i collected w Hclean; [done|].
  cbn [range_loop]. unfold bind.
  rewrite <- (wrapper2_ext lib G sa sk func1 func2) by by apply Hagree.
  destruct (wrapper2 lib G sa sk func1 [VInt i] ∅ w) as [[frame|e] w1] eqn:Hcap;
    [|done].
  apply IH.
  destruct (func1 [VInt i] ∅ (plt_state w) (file_system w))
    as [[[v|e] p] f] eqn:Hfunc.
  - destruct (imperative_success_closed _ _ _ _ _ _ _ _ _ _ _ Hfunc
                (Himp _ _ _ _ _ _ _ Hfunc) Hcap) as [p1 Hp1].
    by eapply Hclose.
  - by rewrite (wrapper2_func_raises _ _ _ _ _ _ _ _ _ _ _ Hfunc) in Hcap.
Qed.

End Protocol.

(** *** These properties at work on the concrete library *)

Section MoreRuns.
Import Demo.

Example class_names_decide :
  is_altair (VStr "altair" : @PyVal Image) = false /\
  is_altair (VObj "__main__.Saltaire" 1 : @PyVal Image) = true.
Proof. by vm_compute. Qed.

Example loop_of_three :
  (range_loop (wrapper2 lib G_without [] ∅ scatter) 0 3 [] w0).1
  = Ok [[Byte.x89; Byte.x01]; [Byte.x89; Byte.x01]; [Byte.x89; Byte.x01]].
Proof. by vm_compute. Qed.

Lemma imperative_ignores_return_value_witness :
  scatter [VInt 1] ∅ [] ∅ = (Ok VNone, ["scatter"], ∅) /\
  scatter_axes [VInt 1] ∅ [] ∅
    = (Ok (VObj "matplotlib.axes._subplots.AxesSubplot" 3), ["scatter"], ∅) /\
  wrapper2 lib G_without [] ∅ scatter [VInt 1] ∅ w0 =
  wrapper2 lib G_without [] ∅ scatter_axes [VInt 1] ∅ w0.
Proof.
  assert (scatter [VInt 1] ∅ [] ∅ = (Ok VNone, ["scatter"], ∅)) as H1
    by reflexivity.
  assert (scatter_axes [VInt 1] ∅ [] ∅
          = (Ok (VObj "matplotlib.axes._subplots.AxesSubplot" 3), ["scatter"], ∅))
    as H2 by reflexivity.
  assert (is_altair (VNone : @PyVal Image) = false) as Ha1 by reflexivity.
  assert (is_altair (VObj "matplotlib.axes._subplots.AxesSubplot" 3 : @PyVal Image)
          = false) as Ha2 by reflexivity.
  split; [exact H1|]. split; [exact H2|].
  exact (imperative_ignores_return_value lib G_without [] ∅ scatter scatter_axes
           [VInt 1] ∅ w0 _ _ ["scatter"] ∅ H1 H2 Ha1 Ha2).
Defined.

Lemma loaded_chart_capture_witness :
  load_module (Imported alt_save) = Ok G_with /\
  chart [VInt 1] ∅ [] ∅ = (Ok a_chart, [], ∅) /\
  is_altair a_chart = true /\
  (wrapper2 lib G_with [] dpi0 chart [VInt 1] ∅ w0).1 = Ok [Byte.x89; Byte.x02].
Proof.
  assert (load_module (Imported alt_save) = Ok G_with) as Hload by reflexivity.
  assert (chart [VInt 1] ∅ [] ∅ = (Ok a_chart, [], ∅)) as Hfunc by reflexivity.
  assert (is_altair a_chart = true) as Halt by reflexivity.
  split; [exact Hload|]. split; [exact Hfunc|]. split; [exact Halt|].
  rewrite (loaded_chart_capture lib G_with (Imported alt_save) [] dpi0 chart
             [VInt 1] ∅ w0 a_chart [] ∅ Hload Hfunc Halt).
  reflexivity.
Defined.

Lemma range_loop_collects_in_order_witness :
  let out := range_loop (wrapper2 lib G_without [] ∅ scatter) 5 2 [] w0 in
  out.1 = Ok [[Byte.x89; Byte.x01]; [Byte.x89; Byte.x01]] /\
  exists calls,
    call_log out.2 = calls /\
    func_calls calls = [([VInt 5], ∅); ([VInt 6], ∅)].
Proof.
  cbv zeta.
  assert (range_loop (wrapper2 lib G_without [] ∅ scatter) 5 2 [] w0
          = (Ok [[Byte.x89; Byte.x01]; [Byte.x89; Byte.x01]],
             (range_loop (wrapper2 lib G_without [] ∅ scatter) 5 2 [] w0).2))
    as Hloop by reflexivity.
  split; [by rewrite Hloop|].
  destruct (range_loop_collects_in_order lib G_without [] ∅ scatter 2 5 [] _ w0 _
              Hloop) as (new & calls & _ & _ & Hlog & Hfunc & _).
  exists calls. split; [exact Hlog|]. exact Hfunc.
Defined.

Lemma range_loop_stops_at_first_failure_witness :
  let out := range_loop (wrapper2 lib G_without [] ∅ flaky) 0 3 [] w0 in
  out.1 = Raise (OtherError "ValueError" "no data for frame 1") /\
  exists calls,
    call_log out.2 = calls /\
    (length (func_calls calls) <= 3)%nat.
Proof.
  cbv zeta.
  assert (range_loop (wrapper2 lib G_without [] ∅ flaky) 0 3 [] w0
          = (Raise (OtherError "ValueError" "no data for frame 1"),
             (range_loop (wrapper2 lib G_without [] ∅ flaky) 0 3 [] w0).2))
    as Hloop by reflexivity.
  split; [by rewrite Hloop|].
  destruct (range_loop_stops_at_first_failure lib G_without [] ∅ flaky 3 0 [] w0 _ _
              Hloop) as (j & frames_j & w_j & calls & Hj & _ & _ & Hlog & Hfunc).
  exists calls. split; [exact Hlog|].
  rewrite Hfunc, length_fmap, length_seqZ. lia.
Defined.

Lemma imperative_loop_runs_on_clean_figures_witness :
  (forall p0 p1 : Plt, plt_close lib p0 = (Ok tt, p1) -> p1 = []) /\
  plt_state w0 = [] /\
  (forall a k (p0 : Plt) (f0 : Files),
     p0 = [] -> scatter a k p0 f0 = scatter_once a k p0 f0) /\
  range_loop (wrapper2 lib G_without [] ∅ scatter) 0 3 [] w0 =
  range_loop (wrapper2 lib G_without [] ∅ scatter_once) 0 3 [] w0.
Proof.
  assert (forall p0 p1 : Plt, plt_close lib p0 = (Ok tt, p1) -> p1 = []) as Hclose.
  { intros p0 p1 H. injection H as H. symmetry. exact H. }
  assert (plt_state w0 = []) as Hclean by reflexivity.
  assert (forall a k (p0 : Plt) (f0 : Files),
            p0 = [] -> scatter a k p0 f0 = scatter_once a k p0 f0) as Hagree.
  { intros a k p0 f0 Hp. rewrite Hp. reflexivity. }
  assert (forall a k (p0 : Plt) (f0 : Files) v p1 f1,
            scatter a k p0 f0 = (Ok v, p1, f1) -> is_altair v = false) as Himp.
  { intros a k p0 f0 v p1 f1 H. injection H as Hv _ _. rewrite <- Hv. reflexivity. }
  split; [exact Hclose|]. split; [exact Hclean|]. split; [exact Hagree|].
  exact (imperative_loop_runs_on_clean_figures lib G_without (fun p => p = [])
           [] ∅ scatter scatter_once 3 0 [] w0 Hclose Hclean Hagree Himp).
Defined.

End MoreRuns.

(** *** Where two claims fail as stated *)

Section Corrections.
Import Figs.

(** C3 as stated fails when the plotting function opens more than one
    figure: [plt.close()] closes the current figure only.  After a successful
    capture of [two_figures] the first figure is still open, with its artist,
    and the next capture of [scatter] draws on it: the frame has two artists,
    where the same capture on a pyplot without figures has one. *)
Lemma leftover_figure_survives_close :
  two_figures [] ∅ [] ∅ = (Ok VNone, [["b"]; ["a"]], ∅) /\
  is_altair (VNone : @PyVal Image) = false /\
  wrapper2 lib G [] ∅ two_figures [] ∅ w0 = (Ok [Byte.x89; Byte.x01], w1) /\
  plt_state w1 = [["a"]] /\
  (wrapper2 lib G [] ∅ scatter [] ∅ w1).1 = Ok [Byte.x89; Byte.x01; Byte.x01] /\
  (wrapper2 lib G [] ∅ scatter [] ∅ w0).1 = Ok [Byte.x89; Byte.x01] /\
  (wrapper2 lib G [] ∅ scatter [] ∅ w1).1 <> (wrapper2 lib G [] ∅ scatter [] ∅ w0).1.
Proof.
  repeat (split; [by vm_compute|]). by vm_compute.
Qed.


(** The same call with a path the encoder accepts writes the one frame. *)
Example single_frame_save_gif :
  let out := save lib [[Byte.x01]] (VStr "out.gif") None w0 in
  out.1 = Ok VNone /\ file_system out.2 !! "out.gif" = Some [[Byte.x01]].
Proof. by vm_compute. Qed.

End Corrections.
